(** * chaos_kitten.brain.attack_planner

    A shallow embedding of [src/chaos_kitten/brain/attack_planner.py] and
    the properties of the attack planner established against it.

    Python values are an inductive type whose dictionaries are finite maps
    keyed by strings; methods of [AttackPlanner] are functions in a small
    state-and-exception monad over the planner object, so that "raises",
    "returns" and "leaves [self] unchanged" are all statements about the
    result of running a method. *)

From Stdlib Require Import ZArith String Ascii.
From stdpp Require Import base option strings gmap list sorting.

Open Scope string_scope.

(** ** Python data *)

Module Py.

(** The values a YAML/JSON document or an OpenAPI endpoint can hold
    ([Any] in the source's annotations). *)
#[warnings="-register-all"]
Inductive value : Type :=
| VNone
| VBool (b : bool)
| VInt (z : Z)
| VStr (s : string)
| VList (l : list value)
| VDict (d : gmap string value).

(** [bool(v)]: the truth value Python's [if] and [or] test. *)
Definition truthy (v : value) : bool :=
  match v with
  | VNone => false
  | VBool b => b
  | VInt z => negb (Z.eqb z 0)
  | VStr s => negb (String.eqb s "")
  | VList l => match l with [] => false | _ :: _ => true end
  | VDict d => negb (bool_decide (d = ∅))
  end.

(** [a or b] yields [a] when it is truthy and [b] otherwise. *)
Definition or_ (a b : value) : value := if truthy a then a else b.

(** [d.get(k, dflt)] *)
Definition get (d : gmap string value) (k : string) (dflt : value) : value :=
  default dflt (d !! k).

(** A raised exception: its class name and its arguments. *)
Record exc : Type := Exc { exc_class : string; exc_args : list string }.

(** What a call ends in. *)
Inductive outcome (A : Type) : Type :=
| Returned (a : A)
| Raised (e : exc).
Arguments Returned {A} a.
Arguments Raised {A} e.

End Py.
Import Py.

(** ** The data classes *)

(** [@dataclass class AttackProfile] *)
Record AttackProfile : Type := mkAttackProfile {
  name : string;
  category : string;
  severity : string;
  description : string;
  payloads : list string;
  target_fields : list string;
  success_indicators : gmap string value;
  remediation : string;
  references : list string
}.

(** The attributes [AttackPlanner.__init__] sets on [self]. *)
Record AttackPlanner : Type := mkAttackPlanner {
  endpoints : list (gmap string value);
  toys_path : string;
  attack_profiles : list AttackProfile
}.

(** ** Methods: state of [self] threaded through, exceptions as outcomes *)

Definition method (A : Type) : Type := AttackPlanner -> outcome A * AttackPlanner.

Definition ret {A} (a : A) : method A := fun self => (Returned a, self).

Definition raise {A} (e : exc) : method A := fun self => (Raised e, self).

Definition bind {A B} (m : method A) (k : A -> method B) : method B :=
  fun self =>
    match m self with
    | (Returned a, self') => k a self'
    | (Raised e, self') => (Raised e, self')
    end.

Declare Scope method_scope.
Delimit Scope method_scope with method.
Notation "x <<- m ;; k" := (bind m (fun x => k))
  (at level 100, m at next level, right associativity) : method_scope.
Notation "m ;;; k" := (bind m (fun _ => k))
  (at level 100, right associativity) : method_scope.

(** ** class AttackPlanner *)

(** [__init__(self, endpoints, toys_path="toys/")] *)
Definition init (endpoints : list (gmap string value)) (toys_path : string)
  : AttackPlanner :=
  {| endpoints := endpoints; toys_path := toys_path; attack_profiles := [] |}.

(** [load_attack_profiles(self)]: the body is [pass]. [fs] is the disk the
    method runs against: the YAML documents, as [yaml.safe_load] returns
    them, keyed by file path. *)
Definition load_attack_profiles (fs : gmap string value) : method unit :=
  ret tt.

(** The one dictionary [plan_attacks] appends. *)
Definition sqli_probe_attack (params : value) : gmap string value :=
  list_to_map
    [ ("type", VStr "sql_injection");
      ("name", VStr "Basic SQLi Probe");
      ("description", VStr "Injects a basic SQL payload to test for errors");
      ("payload", VDict (list_to_map [("q", VStr "' OR 1=1 --")]));
      ("target_param", VStr (if truthy params then "q" else "body"));
      ("expected_status", VInt 500) ].

(** [plan_attacks(self, endpoint)] *)
Definition plan_attacks (endpoint : gmap string value)
  : method (list (gmap string value)) :=
  let attacks := [] in
  let path := get endpoint "path" (VStr "") in
  let method_ := get endpoint "method" (VStr "GET") in
  let params := get endpoint "parameters" (VList []) in
  let body := get endpoint "requestBody" (VDict ∅) in
  let attacks :=
    if truthy (or_ params body)
    then (attacks ++ [sqli_probe_attack params])%list
    else attacks in
  ret attacks.

(** [reason_about_field(self, field_name, field_type)] *)
Definition reason_about_field (field_name field_type : string) : method string :=
  ret ("Standard testing for " ++ field_type ++ " field '" ++ field_name ++ "'").

(** Running a method and projecting its two components. *)
Definition result_of {A} (m : method A) (self : AttackPlanner) : outcome A :=
  fst (m self).
Definition state_after {A} (m : method A) (self : AttackPlanner) : AttackPlanner :=
  snd (m self).

(** ** Vocabulary of the properties *)

(** *** Profile documents on disk *)

Definition as_str (v : value) : option string :=
  match v with VStr s => Some s | _ => None end.

Definition as_dict (v : value) : option (gmap string value) :=
  match v with VDict d => Some d | _ => None end.

Definition as_str_list (v : value) : option (list string) :=
  match v with VList l => mapM as_str l | _ => None end.

(** The five severity levels, lowest first. *)
Definition severity_levels : list string :=
  ["info"; "low"; "medium"; "high"; "critical"].

(** The [AttackProfile] built from a well-formed document: every attribute the
    data class declares without a default is present with its annotated
    type, [remediation] and [references] fall back to their defaults, the
    severity is one of the five levels and there is at least one payload. *)
Definition profile_of_document (doc : value) : option AttackProfile :=
  d ← as_dict doc;
  nm ← d !! "name" ≫= as_str;
  cat ← d !! "category" ≫= as_str;
  sev ← d !! "severity" ≫= as_str;
  descr ← d !! "description" ≫= as_str;
  pls ← d !! "payloads" ≫= as_str_list;
  tfs ← d !! "target_fields" ≫= as_str_list;
  inds ← d !! "success_indicators" ≫= as_dict;
  rem ← match d !! "remediation" with None => Some "" | Some v => as_str v end;
  refs ← match d !! "references" with None => Some [] | Some v => as_str_list v end;
  if bool_decide (sev ∈ severity_levels) && negb (bool_decide (pls = []))
  then Some (mkAttackProfile nm cat sev descr pls tfs inds rem refs)
  else None.

(** The valid profile documents found under directory [dir]. *)
Definition profiles_on_disk (fs : gmap string value) (dir : string)
  : list AttackProfile :=
  omap (fun '(path, doc) =>
          if String.prefix dir path then profile_of_document doc else None)
       (map_to_list fs).

(** Two documents under [dir] declare the same profile name. *)
Definition duplicate_names (fs : gmap string value) (dir : string) : Prop :=
  ¬ NoDup (name <$> profiles_on_disk fs dir).

(** *** Endpoints, targets and matching *)

Definition parameter_name (p : value) : option string :=
  as_dict p ≫= (fun d => d !! "name" ≫= as_str).

(** Names of the declared parameters of an endpoint. *)
Definition parameter_names (endpoint : gmap string value) : list string :=
  match get endpoint "parameters" (VList []) with
  | VList ps => omap parameter_name ps
  | _ => []
  end.

(** Names of the request-body fields of an endpoint. *)
Definition body_field_names (endpoint : gmap string value) : list string :=
  match get endpoint "requestBody" (VDict ∅) with
  | VDict d => (map_to_list d).*1
  | _ => []
  end.

Definition field_names (endpoint : gmap string value) : list string :=
  (parameter_names endpoint ++ body_field_names endpoint)%list.

(** The endpoint declares no parameter and no request-body field. *)
Definition no_parameters (endpoint : gmap string value) : Prop :=
  get endpoint "parameters" (VList []) = VList [].
Definition no_request_body (endpoint : gmap string value) : Prop :=
  get endpoint "requestBody" (VDict ∅) = VDict ∅.

Definition lower_ascii (c : ascii) : ascii :=
  let n := nat_of_ascii c in
  if (65 <=? n)%nat && (n <=? 90)%nat then ascii_of_nat (n + 32) else c.

Fixpoint lower (s : string) : string :=
  match s with
  | EmptyString => EmptyString
  | String c s' => String (lower_ascii c) (lower s')
  end.

(** Profile [p] names [field] among its target fields, ignoring case. *)
Definition targets (p : AttackProfile) (field : string) : Prop :=
  lower field ∈ lower <$> target_fields p.

(** A global profile: no target field, applies to the endpoint as a whole. *)
Definition is_global (p : AttackProfile) : Prop := target_fields p = [].

(** Profile [p] applies to [endpoint]. *)
Definition matches (p : AttackProfile) (endpoint : gmap string value) : Prop :=
  is_global p ∨ Exists (targets p) (field_names endpoint).

#[global] Instance targets_dec p field : Decision (targets p field).
Proof. unfold targets. apply _. Defined.

#[global] Instance is_global_dec p : Decision (is_global p).
Proof. unfold is_global. apply _. Defined.

#[global] Instance matches_dec p endpoint : Decision (matches p endpoint).
Proof. unfold matches. apply _. Defined.

(** The profiles of the planner's snapshot that apply to [endpoint]. *)
Definition matched_profiles (self : AttackPlanner) (endpoint : gmap string value)
  : list AttackProfile :=
  filter (fun p => matches p endpoint) (attack_profiles self).

(** *** Steps of a plan *)

(** A step names the profile it was produced from under [profile_name]. *)
Definition produced_by (p : AttackProfile) (step : gmap string value) : Prop :=
  step !! "profile_name" = Some (VStr (name p)).





(** ** Example inputs *)

Definition with_profiles (self : AttackPlanner) (ps : list AttackProfile)
  : AttackPlanner :=
  {| endpoints := endpoints self; toys_path := toys_path self;
     attack_profiles := ps |}.

Definition sqli_probe : AttackProfile :=
  {| name := "sqli_probe"; category := "injection"; severity := "high";
     description := "SQL injection probe";
     payloads := ["' OR 1=1--"; "'; DROP TABLE x;--"];
     target_fields := ["q"];
     success_indicators := {[ "status_code" := VInt 500 ]};
     remediation := ""; references := [] |}.

Definition search_endpoint : gmap string value :=
  list_to_map
    [ ("path", VStr "/search");
      ("method", VStr "GET");
      ("parameters",
        VList [VDict (list_to_map
          [("name", VStr "q"); ("in", VStr "query"); ("type", VStr "string")])]) ].

Definition sqli_planner : AttackPlanner :=
  with_profiles (init [search_endpoint] "toys/") [sqli_probe].

Definition sqli_probe_document : value :=
  VDict (list_to_map
    [ ("name", VStr "sqli_probe"); ("category", VStr "injection");
      ("severity", VStr "high"); ("description", VStr "SQL injection probe");
      ("payloads", VList [VStr "' OR 1=1--"; VStr "'; DROP TABLE x;--"]);
      ("target_fields", VList [VStr "q"]);
      ("success_indicators", VDict {[ "status_code" := VInt 500 ]}) ]).

Definition one_profile_disk : gmap string value :=
  {[ "toys/sqli_probe.yaml" := sqli_probe_document ]}.

Definition duplicate_disk : gmap string value :=
  <[ "toys/a/sqli.yaml" := sqli_probe_document ]>
    {[ "toys/b/sqli.yaml" := sqli_probe_document ]}.



Definition health_endpoint : gmap string value :=
  list_to_map
    [ ("path", VStr "/health"); ("method", VStr "GET");
      ("parameters", VList []); ("requestBody", VDict ∅) ].

Definition global_probe : AttackProfile :=
  {| name := "security_headers"; category := "misconfiguration";
     severity := "low"; description := "Missing security headers";
     payloads := [""]; target_fields := [];
     success_indicators := {[ "header_present" := VStr "X-Debug" ]};
     remediation := ""; references := [] |}.

Definition global_planner : AttackPlanner :=
  with_profiles (init [health_endpoint] "toys/") [global_probe].

(** ** Callers *)

(** What a caller does with a planner: one method call after another. *)
Inductive call : Type :=
| LoadAttackProfiles (fs : gmap string value)
| PlanAttacks (endpoint : gmap string value)
| ReasonAboutField (field_name field_type : string).

(** One call, its returned value dropped. *)
Definition run_call (c : call) : method unit :=
  match c with
  | LoadAttackProfiles fs => load_attack_profiles fs
  | PlanAttacks endpoint => (plan_attacks endpoint ;;; ret tt)%method
  | ReasonAboutField field_name field_type =>
      (reason_about_field field_name field_type ;;; ret tt)%method
  end.

(** The calls of [cs] in order; an exception ends the sequence. *)
Fixpoint run_calls (cs : list call) : method unit :=
  match cs with
  | [] => ret tt
  | c :: cs' => (run_call c ;;; run_calls cs')%method
  end.

Definition body_only_endpoint : gmap string value :=
  list_to_map
    [ ("path", VStr "/api/login"); ("method", VStr "post");
      ("parameters", VNone);
      ("requestBody", VDict (list_to_map [("user", VStr "string")])) ].

(** * Properties *)

(** ** Running the methods *)

Lemma truthy_list (l : list value) : truthy (VList l) = true <-> l ≠ [].
Proof. destruct l; simpl; split; intros; congruence. Qed.

Lemma truthy_dict (d : gmap string value) : truthy (VDict d) = true <-> d ≠ ∅.
Proof.
  simpl. rewrite negb_true_iff, bool_decide_eq_false. reflexivity.
Qed.

Lemma truthy_or (a b : value) : truthy (or_ a b) = truthy a || truthy b.
Proof. unfold or_. destruct (truthy a) eqn:E; simpl; congruence. Qed.

(** One call of [plan_attacks], evaluated. *)
Lemma plan_attacks_run (endpoint : gmap string value) (self : AttackPlanner) :
  plan_attacks endpoint self =
    (Returned
       (if truthy (get endpoint "parameters" (VList []))
           || truthy (get endpoint "requestBody" (VDict ∅))
        then [sqli_probe_attack (get endpoint "parameters" (VList []))]
        else []),
     self).
Proof. unfold plan_attacks, ret. rewrite truthy_or. reflexivity. Qed.

Lemma load_attack_profiles_run (fs : gmap string value) (self : AttackPlanner) :
  load_attack_profiles fs self = (Returned tt, self).
Proof. reflexivity. Qed.

(** The plan is empty or the single stub dictionary. *)
Lemma plan_attacks_shape (endpoint : gmap string value) (self : AttackPlanner) :
  plan_attacks endpoint self = (Returned [], self)
  ∨ plan_attacks endpoint self =
      (Returned [sqli_probe_attack (get endpoint "parameters" (VList []))], self).
Proof.
  rewrite plan_attacks_run.
  destruct (truthy _ || truthy _); [right | left]; reflexivity.
Qed.

Lemma sqli_probe_attack_payload (params : value) :
  sqli_probe_attack params !! "payload"
  = Some (VDict {[ "q" := VStr "' OR 1=1 --" ]}).
Proof. reflexivity. Qed.

Lemma sqli_probe_attack_status (params : value) :
  sqli_probe_attack params !! "expected_status" = Some (VInt 500).
Proof. reflexivity. Qed.

Lemma sqli_probe_attack_target (params : value) :
  sqli_probe_attack params !! "target_param"
  = Some (VStr (if truthy params then "q" else "body")).
Proof. reflexivity. Qed.

(** The stub dictionary has exactly the six keys of the literal. *)
Lemma sqli_probe_attack_keys (params : value) (k : string) :
  is_Some (sqli_probe_attack params !! k) ->
  k ∈ ["type"; "name"; "description"; "payload"; "target_param";
       "expected_status"].
Proof.
  unfold sqli_probe_attack. intros [v Hv].
  apply elem_of_list_to_map_2 in Hv.
  apply (list_elem_of_fmap_2 fst) in Hv. simpl in Hv. exact Hv.
Qed.

Lemma sqli_probe_attack_no_key (params : value) (k : string) :
  k ∉ ["type"; "name"; "description"; "payload"; "target_param";
       "expected_status"] ->
  sqli_probe_attack params !! k = None.
Proof.
  intros Hk. destruct (sqli_probe_attack params !! k) eqn:E; [|reflexivity].
  exfalso. apply Hk. apply (sqli_probe_attack_keys params). eauto.
Qed.

(** ** The rule-based stub (C10) *)

(** C10. When the endpoint's [parameters] list or its [requestBody] map is
    non-empty, [plan_attacks] returns exactly one dictionary, whose payload is
    [{"q": "' OR 1=1 --"}], whose expected status is 500 and whose target
    parameter is "q" if there are parameters and "body" otherwise, whatever
    the planner holds and whatever the parameters are called; when both are
    empty it returns the empty list. *)
Theorem plan_attacks_stub_rule
    (self : AttackPlanner) (endpoint : gmap string value)
    (ps : list value) (d : gmap string value) :
  get endpoint "parameters" (VList []) = VList ps ->
  get endpoint "requestBody" (VDict ∅) = VDict d ->
  (ps ≠ [] ∨ d ≠ ∅ ->
     ∃ step, plan_attacks endpoint self = (Returned [step], self)
       ∧ step !! "payload" = Some (VDict {[ "q" := VStr "' OR 1=1 --" ]})
       ∧ step !! "expected_status" = Some (VInt 500)
       ∧ (ps ≠ [] -> step !! "target_param" = Some (VStr "q"))
       ∧ (ps = [] -> step !! "target_param" = Some (VStr "body")))
  ∧ (ps = [] -> d = ∅ -> plan_attacks endpoint self = (Returned [], self)).
Proof.
  intros Hps Hd. rewrite plan_attacks_run, Hps, Hd. split.
  - intros Hne.
    assert (truthy (VList ps) || truthy (VDict d) = true) as ->.
    { apply orb_true_iff.
      destruct Hne; [left; by apply truthy_list | right; by apply truthy_dict]. }
    eexists. split; [reflexivity|].
    rewrite sqli_probe_attack_payload, sqli_probe_attack_status,
      sqli_probe_attack_target.
    repeat split.
    + intros H%truthy_list. by rewrite H.
    + intros ->. reflexivity.
  - intros -> ->. reflexivity.
Qed.

Lemma plan_attacks_stub_rule_witness :
  ∃ step,
    plan_attacks search_endpoint sqli_planner = (Returned [step], sqli_planner)
    ∧ step !! "target_param" = Some (VStr "q").
Proof.
  destruct (plan_attacks_stub_rule sqli_planner search_endpoint
              [VDict (list_to_map
                 [("name", VStr "q"); ("in", VStr "query");
                  ("type", VStr "string")])] ∅)
    as [Hone _]; [reflexivity | reflexivity |].
  destruct Hone as (step & Hrun & _ & _ & Hq & _); [left; discriminate|].
  exists step. split; [exact Hrun | apply Hq; discriminate].
Defined.

Lemma plan_attacks_length (endpoint : gmap string value) (self : AttackPlanner) :
  ∃ steps, plan_attacks endpoint self = (Returned steps, self)
    ∧ (length steps ≤ 1)%nat.
Proof.
  destruct (plan_attacks_shape endpoint self) as [H | H]; rewrite H;
    eexists; (split; [reflexivity | simpl; lia]).
Qed.

(** Every dictionary of every plan is the stub dictionary. *)
Lemma plan_attacks_steps (endpoint : gmap string value) (self : AttackPlanner)
    (steps : list (gmap string value)) (step : gmap string value) :
  result_of (plan_attacks endpoint) self = Returned steps ->
  step ∈ steps ->
  step = sqli_probe_attack (get endpoint "parameters" (VList [])).
Proof.
  unfold result_of.
  destruct (plan_attacks_shape endpoint self) as [H | H]; rewrite H; simpl;
    intros [= <-] Hin.
  - by apply elem_of_nil in Hin.
  - by apply list_elem_of_singleton in Hin.
Qed.

(** ** One step per payload (C1) *)

(** C1, as stated, fails on the example: with the [sqli_probe] profile (two
    payloads, target field "q", severity high) and the GET /search endpoint,
    the plan is not a pair of steps with field "q", location "query" and
    severity "high". *)
Lemma sqli_example_not_two_steps :
  ¬ ∃ s1 s2,
      result_of (plan_attacks search_endpoint) sqli_planner = Returned [s1; s2]
      ∧ Forall (fun s => s !! "field" = Some (VStr "q")
                         ∧ s !! "location" = Some (VStr "query")
                         ∧ s !! "severity" = Some (VStr "high")) [s1; s2]
      ∧ s1 !! "payload" = Some (VStr "' OR 1=1--")
      ∧ s2 !! "payload" = Some (VStr "'; DROP TABLE x;--").
Proof.
  intros (s1 & s2 & Hrun & _). vm_compute in Hrun. discriminate Hrun.
Qed.

(** C1, amended. [plan_attacks] does not expand the payloads of a profile:
    whatever profiles the planner holds it returns at most one step, and for
    the [sqli_probe] example and the GET /search endpoint it returns exactly
    one, aimed at parameter "q" and carrying the single payload
    [{"q": "' OR 1=1 --"}]. *)
Theorem plan_attacks_one_step_not_per_payload :
  (∀ (self : AttackPlanner) (endpoint : gmap string value),
     ∃ steps, plan_attacks endpoint self = (Returned steps, self)
       ∧ (length steps ≤ 1)%nat)
  ∧ ∃ step,
      plan_attacks search_endpoint sqli_planner = (Returned [step], sqli_planner)
      ∧ step !! "target_param" = Some (VStr "q")
      ∧ step !! "payload" = Some (VDict {[ "q" := VStr "' OR 1=1 --" ]}).
Proof.
  split; [intros; apply plan_attacks_length|].
  rewrite plan_attacks_run. eexists. split; [reflexivity|].
  split; reflexivity.
Qed.

(** ** Loading (C2, C6) *)

(** C2, on the code: with one valid profile document under the planner's
    profile directory, [load_attack_profiles] returns normally and the
    planner's profile list is still empty. *)
Theorem load_indexes_no_profile :
  profiles_on_disk one_profile_disk "toys/" = [sqli_probe]
  ∧ result_of (load_attack_profiles one_profile_disk) (init [] "toys/")
    = Returned tt
  ∧ length (attack_profiles
              (state_after (load_attack_profiles one_profile_disk)
                 (init [] "toys/"))) = 0%nat.
Proof. split; [vm_compute; reflexivity | split; reflexivity]. Qed.

(** C6, as stated, fails: two documents declaring the name [sqli_probe] lie
    under the profile directory, and the load does not end in a
    [ConflictError]. *)
Lemma duplicate_load_no_conflict_error :
  duplicate_names duplicate_disk "toys/"
  ∧ ¬ ∃ e, result_of (load_attack_profiles duplicate_disk) (init [] "toys/")
           = Raised e
         ∧ exc_class e = "ConflictError".
Proof.
  split.
  - unfold duplicate_names.
    replace (name <$> profiles_on_disk duplicate_disk "toys/")
      with ["sqli_probe"; "sqli_probe"] by (vm_compute; reflexivity).
    intros Hnd. apply NoDup_cons in Hnd as [Hnotin _].
    apply Hnotin. apply list_elem_of_here.
  - intros (e & Hrun & _). discriminate Hrun.
Qed.

(** C6, amended. When two profile documents under the profile directory
    declare the same name, [load_attack_profiles] raises nothing: it returns
    normally, and the planner, its profile list included, is as it was. *)
Theorem load_duplicate_names_returns
    (fs : gmap string value) (self : AttackPlanner) :
  duplicate_names fs (toys_path self) ->
  load_attack_profiles fs self = (Returned tt, self)
  ∧ attack_profiles (state_after (load_attack_profiles fs) self)
    = attack_profiles self.
Proof. intros _. split; reflexivity. Qed.

Lemma load_duplicate_names_returns_witness :
  duplicate_names duplicate_disk "toys/"
  ∧ load_attack_profiles duplicate_disk sqli_planner
    = (Returned tt, sqli_planner).
Proof.
  assert (duplicate_names duplicate_disk (toys_path sqli_planner)) as Hdup.
  { unfold duplicate_names.
    replace (name <$> profiles_on_disk duplicate_disk (toys_path sqli_planner))
      with ["sqli_probe"; "sqli_probe"] by (vm_compute; reflexivity).
    intros Hnd. apply NoDup_cons in Hnd as [Hnotin _].
    apply Hnotin. apply list_elem_of_here. }
  split; [exact Hdup|].
  exact (proj1 (load_duplicate_names_returns duplicate_disk sqli_planner Hdup)).
Defined.

(** ** Planning before a load (C3) *)

(** C3, as stated, fails: on a planner straight from [__init__], on which no
    load ever ran, [plan_attacks] for the GET /search endpoint does not end
    in a [NotLoadedError]. *)
Lemma plan_before_load_no_error :
  ¬ ∃ e,
      result_of (plan_attacks search_endpoint) (init [search_endpoint] "toys/")
      = Raised e
      ∧ exc_class e = "NotLoadedError".
Proof. intros (e & Hrun & _). vm_compute in Hrun. discriminate Hrun. Qed.

(** C3, amended. [plan_attacks] needs no completed load: on a planner
    straight from [__init__] it returns a plan for every endpoint, raising
    nothing, and that plan is the one it returns after a load. *)
Theorem plan_before_load_returns
    (eps : list (gmap string value)) (toys : string)
    (endpoint : gmap string value) (fs : gmap string value) :
  ∃ steps,
    plan_attacks endpoint (init eps toys) = (Returned steps, init eps toys)
    ∧ (load_attack_profiles fs ;;; plan_attacks endpoint)%method (init eps toys)
      = (Returned steps, init eps toys).
Proof.
  destruct (plan_attacks_length endpoint (init eps toys)) as (steps & Hrun & _).
  exists steps. split; [exact Hrun|].
  unfold bind. rewrite load_attack_profiles_run. exact Hrun.
Qed.

(** ** Determinism (C4) *)

(** C4. [plan_attacks] leaves the planner as it found it, so a second call
    runs on the snapshot the first one saw, and the plan is a function of the
    snapshot and the endpoint: two planners holding the same profiles return
    the same ordered plan for the same endpoint, and two calls in a row on
    one planner return the same plan twice. *)
Theorem plan_attacks_deterministic
    (s1 s2 : AttackPlanner) (endpoint : gmap string value) :
  attack_profiles s1 = attack_profiles s2 ->
  ∃ steps,
    result_of (plan_attacks endpoint) s1 = Returned steps
    ∧ result_of (plan_attacks endpoint) s2 = Returned steps
    ∧ state_after (plan_attacks endpoint) s1 = s1
    ∧ (first <<- plan_attacks endpoint ;;
       second <<- plan_attacks endpoint ;;
       ret (first, second))%method s1
      = (Returned (steps, steps), s1).
Proof.
  intros _. unfold result_of, state_after, bind, ret.
  rewrite !plan_attacks_run. eexists. repeat split.
Qed.

Lemma plan_attacks_deterministic_witness :
  ∃ steps,
    result_of (plan_attacks search_endpoint) sqli_planner = Returned steps
    ∧ result_of (plan_attacks search_endpoint)
        (with_profiles (init [] "profiles/") [sqli_probe]) = Returned steps.
Proof.
  destruct (plan_attacks_deterministic sqli_planner
              (with_profiles (init [] "profiles/") [sqli_probe])
              search_endpoint)
    as (steps & H1 & H2 & _); [reflexivity|].
  exists steps. split; assumption.
Defined.

(** ** Ordering of the steps (C5) *)





(** ** Endpoints without parameters or body (C8) *)

(** C8, as stated, fails: the health endpoint has no parameters and no
    request body, the planner holds the global profile [global_probe], which
    applies to the endpoint, and the plan contains no step of that profile:
    the endpoint receives no global step. *)
Lemma global_profile_gets_no_step :
  no_parameters health_endpoint ∧ no_request_body health_endpoint
  ∧ is_global global_probe
  ∧ matched_profiles global_planner health_endpoint = [global_probe]
  ∧ ¬ ∃ steps step,
        result_of (plan_attacks health_endpoint) global_planner = Returned steps
        ∧ step ∈ steps
        ∧ produced_by global_probe step.
Proof.
  split; [reflexivity|]. split; [reflexivity|]. split; [reflexivity|].
  split; [vm_compute; reflexivity|].
  intros (steps & step & Hrun & Hin & _).
  unfold result_of in Hrun. rewrite plan_attacks_run in Hrun.
  simpl in Hrun. injection Hrun as <-. by apply elem_of_nil in Hin.
Qed.

(** C8, amended. For an endpoint with no parameters and no request body,
    [plan_attacks] raises nothing and returns the empty plan, whether or not
    the snapshot holds a global profile: global profiles contribute no
    step. *)
Theorem plan_attacks_no_fields_empty
    (self : AttackPlanner) (endpoint : gmap string value) :
  no_parameters endpoint ->
  no_request_body endpoint ->
  plan_attacks endpoint self = (Returned [], self).
Proof.
  unfold no_parameters, no_request_body. intros Hps Hbody.
  rewrite plan_attacks_run, Hps, Hbody. reflexivity.
Qed.

Lemma plan_attacks_no_fields_empty_witness :
  no_parameters health_endpoint ∧ no_request_body health_endpoint
  ∧ plan_attacks health_endpoint global_planner = (Returned [], global_planner).
Proof.
  assert (no_parameters health_endpoint) as Hps by reflexivity.
  assert (no_request_body health_endpoint) as Hbody by reflexivity.
  split; [exact Hps|]. split; [exact Hbody|].
  exact (plan_attacks_no_fields_empty global_planner health_endpoint Hps Hbody).
Defined.

(** ** Expected indicators (C9) *)

(** C9, on the code: no step of any plan has an [expected_indicators] or a
    [profile_name] entry; at the [sqli_probe] example the plan has one step,
    which carries the fixed [expected_status] 500 and nothing of the
    profile's success indicators. *)
Theorem plan_steps_lack_expected_indicators :
  (∀ (self : AttackPlanner) (endpoint : gmap string value) steps step,
     result_of (plan_attacks endpoint) self = Returned steps ->
     step ∈ steps ->
     step !! "expected_indicators" = None ∧ step !! "profile_name" = None)
  ∧ ∃ step,
      result_of (plan_attacks search_endpoint) sqli_planner = Returned [step]
      ∧ step !! "expected_indicators" ≠ Some (VDict (success_indicators sqli_probe))
      ∧ step !! "expected_status" = Some (VInt 500).
Proof.
  split.
  - intros self endpoint steps step Hrun Hin.
    rewrite (plan_attacks_steps endpoint self steps step Hrun Hin).
    split; apply sqli_probe_attack_no_key; vm_compute; intros H;
      repeat (apply elem_of_cons in H as [H | H]; [discriminate H|]);
      by apply elem_of_nil in H.
  - unfold result_of. rewrite plan_attacks_run. eexists.
    split; [reflexivity|]. split; [|reflexivity].
    rewrite sqli_probe_attack_no_key; [discriminate|].
    vm_compute; intros H;
      repeat (apply elem_of_cons in H as [H | H]; [discriminate H|]);
      by apply elem_of_nil in H.
Qed.

(** * Further properties of the planner *)

(** ** What [plan_attacks] reads of an endpoint *)

Lemma sqli_probe_attack_truthy (p1 p2 : value) :
  truthy p1 = truthy p2 -> sqli_probe_attack p1 = sqli_probe_attack p2.
Proof. unfold sqli_probe_attack. intros ->. reflexivity. Qed.

Lemma plan_attacks_result (endpoint : gmap string value) (self : AttackPlanner) :
  result_of (plan_attacks endpoint) self =
    Returned
      (if truthy (get endpoint "parameters" (VList []))
          || truthy (get endpoint "requestBody" (VDict ∅))
       then [sqli_probe_attack (get endpoint "parameters" (VList []))]
       else []).
Proof. unfold result_of. rewrite plan_attacks_run. reflexivity. Qed.

Lemma plan_attacks_result_truthy
    (self1 self2 : AttackPlanner) (ep1 ep2 : gmap string value) :
  truthy (get ep1 "parameters" (VList []))
  = truthy (get ep2 "parameters" (VList [])) ->
  truthy (get ep1 "requestBody" (VDict ∅))
  = truthy (get ep2 "requestBody" (VDict ∅)) ->
  result_of (plan_attacks ep1) self1 = result_of (plan_attacks ep2) self2.
Proof.
  intros Hps Hbody. rewrite !plan_attacks_result, Hps, Hbody.
  by rewrite (sqli_probe_attack_truthy _ _ Hps).
Qed.

(** X1. Whatever kind of value sits under [parameters] and [requestBody]
    (a list, a map, [None], a string, ...), only its truth value counts: a
    truthy [parameters] gives one step aimed at "q"; a falsy [parameters]
    with a truthy [requestBody] gives one step aimed at "body"; both falsy,
    as with a key that is absent or holds [None], gives the empty plan. *)
Theorem plan_attacks_by_truthiness
    (self : AttackPlanner) (endpoint : gmap string value) (params body : value) :
  get endpoint "parameters" (VList []) = params ->
  get endpoint "requestBody" (VDict ∅) = body ->
  (truthy params = true ->
     ∃ step, plan_attacks endpoint self = (Returned [step], self)
       ∧ step !! "target_param" = Some (VStr "q"))
  ∧ (truthy params = false -> truthy body = true ->
     ∃ step, plan_attacks endpoint self = (Returned [step], self)
       ∧ step !! "target_param" = Some (VStr "body"))
  ∧ (truthy params = false -> truthy body = false ->
     plan_attacks endpoint self = (Returned [], self)).
Proof.
  intros <- <-. rewrite plan_attacks_run. repeat split.
  - intros Hp. rewrite Hp. simpl. eexists. split; [reflexivity|].
    by rewrite sqli_probe_attack_target, Hp.
  - intros Hp Hb. rewrite Hp, Hb. simpl. eexists. split; [reflexivity|].
    by rewrite sqli_probe_attack_target, Hp.
  - intros Hp Hb. by rewrite Hp, Hb.
Qed.

Lemma plan_attacks_by_truthiness_witness :
  ∃ step,
    plan_attacks body_only_endpoint sqli_planner
    = (Returned [step], sqli_planner)
    ∧ step !! "target_param" = Some (VStr "body").
Proof.
  destruct (plan_attacks_by_truthiness sqli_planner body_only_endpoint
              VNone (VDict (list_to_map [("user", VStr "string")])))
    as (_ & Hbody & _); [reflexivity | reflexivity |].
  apply Hbody; reflexivity.
Defined.

(** X2. Two endpoints whose [parameters] agree in truth value and whose
    [requestBody] agree in truth value get the same plan, on any two
    planners: parameter names, types and locations, body fields, path and
    method have no influence. *)
Theorem plan_attacks_same_truthiness_same_plan
    (self1 self2 : AttackPlanner) (ep1 ep2 : gmap string value) :
  truthy (get ep1 "parameters" (VList []))
  = truthy (get ep2 "parameters" (VList [])) ->
  truthy (get ep1 "requestBody" (VDict ∅))
  = truthy (get ep2 "requestBody" (VDict ∅)) ->
  result_of (plan_attacks ep1) self1 = result_of (plan_attacks ep2) self2.
Proof. apply plan_attacks_result_truthy. Qed.

Lemma plan_attacks_same_truthiness_same_plan_witness :
  result_of (plan_attacks search_endpoint) sqli_planner
  = result_of (plan_attacks
                 (<["parameters" := VList [VInt 7; VStr "id"]]> health_endpoint))
      global_planner.
Proof.
  apply (plan_attacks_same_truthiness_same_plan sqli_planner global_planner
           search_endpoint
           (<["parameters" := VList [VInt 7; VStr "id"]]> health_endpoint));
    reflexivity.
Defined.

(** X3. Setting or removing any key of the endpoint other than [parameters]
    and [requestBody] ([path] and [method] among them) leaves the plan as it
    was. *)
Theorem plan_attacks_ignores_other_keys
    (self : AttackPlanner) (endpoint : gmap string value)
    (k : string) (v : value) :
  k ≠ "parameters" -> k ≠ "requestBody" ->
  result_of (plan_attacks (<[k := v]> endpoint)) self
  = result_of (plan_attacks endpoint) self
  ∧ result_of (plan_attacks (delete k endpoint)) self
    = result_of (plan_attacks endpoint) self.
Proof.
  intros Hp Hb. unfold get.
  split; apply plan_attacks_result_truthy; unfold get;
    rewrite ?lookup_insert_ne, ?lookup_delete_ne by done; reflexivity.
Qed.

Lemma plan_attacks_ignores_other_keys_witness :
  result_of (plan_attacks (<["path" := VStr "/admin"]> search_endpoint))
    sqli_planner
  = result_of (plan_attacks search_endpoint) sqli_planner.
Proof.
  apply (plan_attacks_ignores_other_keys sqli_planner search_endpoint
           "path" (VStr "/admin")); discriminate.
Defined.

(** X4. Every dictionary of every plan has exactly the six keys [type],
    [name], [description], [payload], [target_param] and
    [expected_status]. *)
Theorem plan_attacks_step_keys
    (self : AttackPlanner) (endpoint : gmap string value)
    (steps : list (gmap string value)) (step : gmap string value) :
  result_of (plan_attacks endpoint) self = Returned steps ->
  step ∈ steps ->
  dom step
  = ({[ "type"; "name"; "description"; "payload"; "target_param";
        "expected_status" ]} : gset string).
Proof.
  intros Hrun Hin.
  rewrite (plan_attacks_steps endpoint self steps step Hrun Hin).
  unfold sqli_probe_attack. rewrite dom_list_to_map_L. simpl.
  set_solver.
Qed.

Lemma plan_attacks_step_keys_witness :
  dom (sqli_probe_attack (get search_endpoint "parameters" (VList [])))
  = ({[ "type"; "name"; "description"; "payload"; "target_param";
        "expected_status" ]} : gset string).
Proof.
  apply (plan_attacks_step_keys sqli_planner search_endpoint
           [sqli_probe_attack (get search_endpoint "parameters" (VList []))]).
  - unfold result_of. rewrite plan_attacks_run. reflexivity.
  - apply list_elem_of_here.
Defined.

(** ** [reason_about_field] *)

Lemma string_length_app (a b : string) :
  String.length (a ++ b) = (String.length a + String.length b)%nat.
Proof. induction a as [|c a IH]; simpl; [reflexivity | by rewrite IH]. Qed.

Lemma string_app_inv_tail (a b s : string) : a ++ s = b ++ s -> a = b.
Proof.
  revert b. induction a as [|c a IH]; intros [|c' b] H.
  - reflexivity.
  - apply (f_equal String.length) in H.
    rewrite !string_length_app in H. simpl in H. lia.
  - apply (f_equal String.length) in H.
    rewrite !string_length_app in H. simpl in H. lia.
  - injection H as -> H. f_equal. by apply IH.
Qed.

Lemma reason_about_field_run
    (field_name field_type : string) (self : AttackPlanner) :
  reason_about_field field_name field_type self =
    (Returned ("Standard testing for " ++ field_type ++ " field '"
               ++ field_name ++ "'"), self).
Proof. reflexivity. Qed.

(** X5. The text [reason_about_field] returns tells two fields of one type
    apart, and two types of one field name apart: equal texts for equal
    types come from equal names, and equal texts for equal names from equal
    types. *)
Theorem reason_about_field_separates
    (self : AttackPlanner) (name1 name2 type1 type2 : string) :
  result_of (reason_about_field name1 type1) self
  = result_of (reason_about_field name2 type2) self ->
  (type1 = type2 -> name1 = name2) ∧ (name1 = name2 -> type1 = type2).
Proof.
  unfold result_of. rewrite !reason_about_field_run. simpl.
  intros [= H]. apply (inj (String.app _)) in H. split.
  - intros ->.
    apply (inj (String.app _)) in H. apply (inj (String.app _)) in H.
    by apply string_app_inv_tail in H.
  - intros ->. by apply string_app_inv_tail in H.
Qed.

Lemma reason_about_field_separates_witness :
  result_of (reason_about_field "age" "integer") sqli_planner
  = Returned "Standard testing for integer field 'age'"
  ∧ ("integer" = "integer" -> "age" = "age")
  ∧ ("age" = "age" -> "integer" = "integer").
Proof.
  split; [reflexivity|].
  apply (reason_about_field_separates sqli_planner "age" "age"
           "integer" "integer"); reflexivity.
Defined.

(** X6. The text [reason_about_field] returns is 30 characters longer than
    the field name and the field type together. *)
Theorem reason_about_field_length
    (self : AttackPlanner) (field_name field_type : string) :
  ∃ text,
    reason_about_field field_name field_type self = (Returned text, self)
    ∧ String.length text
      = (30 + String.length field_type + String.length field_name)%nat.
Proof.
  rewrite reason_about_field_run. eexists. split; [reflexivity|].
  rewrite !string_length_app. simpl. lia.
Qed.

(** ** Sequences of calls *)

Lemma run_call_unchanged (c : call) (self : AttackPlanner) :
  run_call c self = (Returned tt, self).
Proof.
  destruct c as [fs | endpoint | field_name field_type]; simpl; unfold bind.
  - reflexivity.
  - by rewrite plan_attacks_run.
  - by rewrite reason_about_field_run.
Qed.

Lemma run_calls_unchanged (cs : list call) (self : AttackPlanner) :
  run_calls cs self = (Returned tt, self).
Proof.
  induction cs as [|c cs IH]; simpl; [reflexivity|].
  unfold bind. by rewrite run_call_unchanged, IH.
Qed.

(** X7. No sequence of loads, plans and field reasonings raises or changes
    the planner: a planner built by [__init__] still has an empty profile
    list after any sequence of calls, and a plan asked for after the sequence
    is the plan asked for before it. *)
Theorem calls_leave_planner_unchanged
    (cs : list call) (self : AttackPlanner) (endpoint : gmap string value) :
  run_calls cs self = (Returned tt, self)
  ∧ (run_calls cs ;;; plan_attacks endpoint)%method self
    = plan_attacks endpoint self
  ∧ ∀ eps toys,
      attack_profiles (state_after (run_calls cs) (init eps toys)) = [].
Proof.
  split; [apply run_calls_unchanged|]. split.
  - unfold bind. by rewrite run_calls_unchanged.
  - intros eps toys. unfold state_after. by rewrite run_calls_unchanged.
Qed.
